(** * fsworkflow: the inbound call workflow, the bridge activity and the
      processor factory

    A shallow embedding of

    - [workflow/processors/processor_factory.go]
      ([FreeswitchProcessorFactoryImpl.CreateActivityProcessor] and
      [InboundWorkflow.Handler]), and
    - [workflow/activities/bridge_activity.go] ([BridgeActivity.Handler]).

    Go packages become modules of the same name.  A call to an external
    collaborator (the switch client, the durable execution engine) is a
    query to an oracle; every query is appended to a log together with its
    reply, so that "which commands were issued" and "which activities were
    invoked, in which order" are plain statements about a list.  A failed
    unchecked type assertion [x.(string)] is a runtime panic and is kept
    apart from a returned [(output, error)] pair. *)

From stdpp Require Import base option strings gmap list.
From Stdlib Require Import ZArith.

(** ** Go runtime: results, panics and logged calls *)

Module rt.

(** What running a Go function body ends in. *)
Inductive Result (A : Type) : Type :=
| Returned (a : A)
| Panicked.
Arguments Returned {A} a.
Arguments Panicked {A}.

Section Calls.
(** [Q] is what is sent to the collaborator, [R] what comes back. *)
Context {Q R : Type}.

Definition Log : Type := list (Q * R).

Definition M (A : Type) : Type := (Q -> R) -> Log -> Result A * Log.

Definition ret {A} (a : A) : M A := fun _ log => (Returned a, log).

Definition bind {A B} (m : M A) (f : A -> M B) : M B :=
  fun env log =>
    match m env log with
    | (Returned a, log') => f a env log'
    | (Panicked, log') => (Panicked, log')
    end.

Definition panic {A} : M A := fun _ log => (Panicked, log).

(** One synchronous request/response exchange. *)
Definition call (q : Q) : M R :=
  fun env log => (Returned (env q), log ++ [(q, env q)]).

Definition run {A} (m : M A) (env : Q -> R) : Result A * Log := m env [].
End Calls.

Arguments M : clear implicits.
Arguments Log : clear implicits.

End rt.

(** stdpp's [x ← m; k] and ['(x, y) ← m; k] are the sequencing of [rt.M]. *)
#[global] Instance rt_ret {Q R} : MRet (rt.M Q R) := @rt.ret Q R.
#[global] Instance rt_bind {Q R} : MBind (rt.M Q R) := fun A B f m => rt.bind m f.

(** ** Package shared *)

Module shared.

(** A Go [interface{}] value as it sits in a metadata map. *)
Inductive Value : Type :=
| VNil
| VString (s : string)
| VBool (b : bool)
| VNumber (n : Z).

Definition is_nil (v : Value) : bool :=
  match v with VNil => true | _ => false end.

(** [shared.Metadata] is a Go map; like every Go map it may be [nil],
    which is [None] here. *)
Abbreviation Metadata := (option (gmap string Value)).

(** [make(shared.Metadata)] *)
Definition make_Metadata : Metadata := Some ∅.

(** [m[k]]: reading a missing key, or any key of a nil map, yields the
    zero value of [interface{}], which is nil. *)
Definition index (m : Metadata) (k : string) : Value :=
  match m with
  | Some g => default VNil (g !! k)
  | None => VNil
  end.

(** The field [Metadata] is [Metadata_] here, its name being taken by the
    type. *)
Record WorkflowOutput : Type := mkWorkflowOutput {
  Success : bool;
  Metadata_ : Metadata
}.

(** Modelled from the spec: the error constructors
    [shared.NewWorkflowInputError] and [shared.RequireField] are declared
    in package shared, which is not among the sources; the spec's error
    taxonomy has an input error carrying a message and a missing-field
    error carrying the field name.  [OtherError] stands for every error a
    collaborator reports (transport, engine). *)
Inductive error : Type :=
| WorkflowInputError (msg : string)
| MissingFieldError (field : string)
| OtherError (msg : string).

Definition NewWorkflowInputError (msg : string) : error := WorkflowInputError msg.
Definition RequireField (field : string) : error := MissingFieldError field.

(** Modelled from the spec: the metadata keys, constants of package
    shared ("Recognized metadata keys"). *)
Definition Action : string := "action".
Definition Destination : string := "destination".
Definition Gateway : string := "gateway".
Definition Profile : string := "profile".
Definition Uid : string := "uid".
Definition HangupCause : string := "hangupCause".
Definition Message : string := "message".

(** Modelled from the spec: the action literals, constants of package
    shared ("Action enum literal values"); the workflow switches on
    [Bridge], [Hangup], [Originate], the factory on [ActionOriginate],
    [ActionBridge], [ActionHangup]. *)
Definition Bridge : string := "bridge".
Definition Hangup : string := "hangup".
Definition Originate : string := "originate".
Definition ActionOriginate : string := "originate".
Definition ActionBridge : string := "bridge".
Definition ActionHangup : string := "hangup".

(** [v.(string)], the one-result form: panics unless [v] holds a string. *)
Definition assert_string {Q R} (v : Value) : rt.M Q R string :=
  match v with
  | VString s => rt.ret s
  | _ => rt.panic
  end.

End shared.

(** ** Package freeswitch *)

Module freeswitch.

Record Command : Type := mkCommand {
  AppName : string;
  AppArgs : string
}.

Inductive Direction : Type := Inbound | Outbound.

(** [SocketClient.Api(ctx, cmd) (res, err)].  The response is kept as the
    value that the activity stores into the metadata map. *)
Definition SocketClient : Type := Command -> shared.Value * option shared.error.

End freeswitch.

(** ** Package activities *)

Module activities.
Import shared freeswitch.

Record BridgeActivityInput : Type := mkBridgeActivityInput {
  Originator : string;
  Originatee : string
}.

(** The input structs of the other activities, with the fields the
    workflow's composite literals set. *)
Record SessionInitActivityInput : Type := mkSessionInitActivityInput {
  si_ANI : string;
  si_DNIS : string;
  si_Domain : string;
  si_Initializer : string;
  si_Timeout : Z
}.

Record HangupActivityInput : Type := mkHangupActivityInput {
  hup_SessionId : string;
  hup_HangupCause : string
}.

Record OriginateActivityInput : Type := mkOriginateActivityInput {
  orig_Timeout : Z;
  orig_Destination : string;
  orig_Gateway : string;
  orig_AllowReject : bool;
  orig_AutoAnswer : bool;
  orig_Direction : Direction;
  orig_Profile : string
}.

(** [BridgeActivity.Name] *)
Definition Name : string := "activities.BridgeActivity".

(** [fmt.Sprintf("%v %v", a, b)] on two strings. *)
Definition Sprintf_v_v (a b : string) : string := a +:+ " " +:+ b.

Section BridgeActivity.
(** [shared.Convert(i, &input)] is not among the sources: [None] is
    its [false], [Some input] its [true] with [input] filled in. *)
Context {Payload : Type}.
Variable Convert : Payload -> option BridgeActivityInput.

Definition Api (cmd : Command) : rt.M Command (Value * option error) (Value * option error) :=
  rt.call cmd.

(** [BridgeActivity.Handler] *)
Definition Handler (i : Payload)
  : rt.M Command (Value * option error) (WorkflowOutput * option error) :=
  let output := mkWorkflowOutput false make_Metadata in
  match Convert i with
  | None =>
      rt.ret (output, Some (NewWorkflowInputError "Cannot cast input to BridgeActivityInput"))
  | Some input =>
      '(res, err) ← Api (mkCommand "uuid_bridge"
                           (Sprintf_v_v (Originator input) (Originatee input)));
      match err with
      | Some e => rt.ret (output, Some e)
      | None =>
          (* output.Success = true; output.Metadata[shared.Message] = res *)
          match Metadata_ output with
          | Some g =>
              rt.ret (mkWorkflowOutput true (Some (<[Message := res]> g)), None)
          | None => rt.panic (* assignment to entry in nil map *)
          end
      end
  end.
End BridgeActivity.

End activities.

(** ** Package processors *)

Module processors.
Import shared freeswitch.

Record FreeswitchProcessorFactoryImpl : Type := NewFreeswitchProcessorFactory {
  fsClient : SocketClient
}.

(** The three processor implementations are declared in files that are
    not among the sources; a processor is kept as the constructor that
    built it together with the client handed to that constructor. *)
Inductive FreeswitchActivityProcessor : Type :=
| NewOriginateProcessor (c : SocketClient)
| NewBridgeProcessor (c : SocketClient)
| NewHangupProcessor (c : SocketClient).

(** [FreeswitchProcessorFactoryImpl.CreateActivityProcessor]; the Go pair
    [(processor, error)], [None] being [nil]. *)
Definition CreateActivityProcessor (f : FreeswitchProcessorFactoryImpl) (s : string)
  : option FreeswitchActivityProcessor * option error :=
  if String.eqb s ActionOriginate then (Some (NewOriginateProcessor (fsClient f)), None)
  else if String.eqb s ActionBridge then (Some (NewBridgeProcessor (fsClient f)), None)
  else if String.eqb s ActionHangup then (Some (NewHangupProcessor (fsClient f)), None)
  else (None, Some (NewWorkflowInputError "unsupported action")).

End processors.

(** ** Package workflows *)

Module workflows.
Import shared freeswitch activities.

Record InboundWorkflowInput : Type := mkInboundWorkflowInput {
  ANI : string;
  DNIS : string;
  Domain : string;
  SessionId : string;
  Initializer : string;
  Timeout : Z
}.

Definition InitCompletedSignal : string := "init_completed".

(** [InboundWorkflow.Name] *)
Definition Name : string := "workflows.InboundWorkflow".

(** [time.Second], a [time.Duration] in nanoseconds. *)
Definition Second : Z := 1000000000.

Record ActivityOptions : Type := mkActivityOptions {
  ScheduleToStartTimeout : Z;
  StartToCloseTimeout : Z
}.

(** An activity handed to the engine, with its input. *)
Inductive Activity : Type :=
| SessionInitActivity (i : SessionInitActivityInput)
| HangupActivity (i : HangupActivityInput)
| OriginateActivity (i : OriginateActivityInput)
| BridgeActivity (i : BridgeActivityInput).

(** [workflow.ExecuteActivity(ctx, a.Handler(), input).Get(ctx, &output)]
    as one exchange with the engine: the request carries the activity
    options of [ctx], the activity and what [output] holds when its
    address is passed; the reply is what [output] holds afterwards and
    the error [Get] returns. *)
Record Request : Type := mkRequest {
  req_options : ActivityOptions;
  req_activity : Activity;
  req_output : WorkflowOutput
}.

Definition Reply : Type := WorkflowOutput * option error.

Definition Engine : Type := Request -> Reply.

Abbreviation W := (rt.M Request Reply).

Definition ExecuteActivity_Get (ctx : ActivityOptions) (a : Activity) (output : WorkflowOutput)
  : W Reply :=
  rt.call (mkRequest ctx a output).

(** [err != nil || !output.Success] *)
Definition failed (r : Reply) : bool :=
  match r with
  | (output, err) => bool_decide (is_Some err) || negb (Success output)
  end.

(** The optional string fields: [if m[k] != nil { x = m[k].(string) }],
    the field keeping its zero value otherwise. *)
Definition optional_string (m : Metadata) (k : string) : W string :=
  if is_nil (index m k) then mret EmptyString else assert_string (index m k).

Section InboundWorkflow.
(** [shared.Convert(i, &input)], as for the activity. *)
Context {Payload : Type}.
Variable Convert : Payload -> option InboundWorkflowInput.

(** [InboundWorkflow.Handler] *)
Definition Handler (i : Payload) : W (WorkflowOutput * option error) :=
  let output := mkWorkflowOutput false make_Metadata in
  match Convert i with
  | None =>
      mret (output, Some (NewWorkflowInputError "Cannot cast input to InboundWorkflowInput"))
  | Some input =>
      let ctx := mkActivityOptions Second (Timeout input) in
      '(output, err) ← ExecuteActivity_Get ctx
         (SessionInitActivity
            (mkSessionInitActivityInput (ANI input) (DNIS input) (Domain input)
               (Initializer input) (Timeout input)))
         output;
      if failed (output, err) then mret (output, err) else
      action ← assert_string (index (Metadata_ output) Action);
      if String.eqb action Bridge then
        mret (output, None)
      else if String.eqb action Hangup then
        cause ← optional_string (Metadata_ output) HangupCause;
        let hi := mkHangupActivityInput (SessionId input) cause in
        '(output, err) ← ExecuteActivity_Get ctx (HangupActivity hi) output;
        match err with
        | Some e => mret (output, Some e)
        | None => mret (output, None)
        end
      else if String.eqb action Originate then
        if is_nil (index (Metadata_ output) Destination) then
          mret (output, Some (RequireField "destination"))
        else if is_nil (index (Metadata_ output) Gateway) then
          mret (output, Some (RequireField "gateway"))
        else
          destination ← assert_string (index (Metadata_ output) Destination);
          gateway ← assert_string (index (Metadata_ output) Gateway);
          profile ← optional_string (Metadata_ output) Profile;
          let oi := mkOriginateActivityInput (Timeout input) destination gateway
                      true false Inbound profile in
          '(output, err) ← ExecuteActivity_Get ctx (OriginateActivity oi) output;
          if failed (output, err) then mret (output, err) else
          if is_nil (index (Metadata_ output) Uid) then
            mret (output, Some (RequireField "uid"))
          else
            originatee ← assert_string (index (Metadata_ output) Uid);
            let bi := mkBridgeActivityInput (SessionId input) originatee in
            '(output, err) ← ExecuteActivity_Get ctx (BridgeActivity bi) output;
            if failed (output, err) then mret (output, err) else
            mret (output, None)
      else
        mret (output, None)
  end.
End InboundWorkflow.

End workflows.

(** * Vocabulary of the statements *)

Import shared freeswitch.

(** The value is a string (what [v.(string)] needs). *)
Definition is_string (v : Value) : bool :=
  match v with VString _ => true | _ => false end.

(** What [output] holds before the first activity: line 67 of the
    workflow, line 32 of the activity. *)
Definition initial_output : WorkflowOutput := mkWorkflowOutput false make_Metadata.

(** The command [BridgeActivity.Handler] builds for two leg identifiers. *)
Definition bridge_command (A B : string) : Command :=
  mkCommand "uuid_bridge" (A +:+ " " +:+ B).

(** The commands of a log, in the order they were issued. *)
Definition issued {Q R} (log : rt.Log Q R) : list Q := fst <$> log.

(** ** InboundWorkflow: the requests it sends and the paths it takes *)

Import activities workflows.

(** The activity options the workflow installs in [ctx]. *)
Definition options_of (input : InboundWorkflowInput) : ActivityOptions :=
  mkActivityOptions Second (Timeout input).

Definition SessionInit_request (input : InboundWorkflowInput) : Request :=
  mkRequest (options_of input)
    (SessionInitActivity
       (mkSessionInitActivityInput (ANI input) (DNIS input) (Domain input)
          (Initializer input) (Timeout input)))
    initial_output.

Definition Hangup_request (input : InboundWorkflowInput) (cause : string)
    (output : WorkflowOutput) : Request :=
  mkRequest (options_of input)
    (HangupActivity (mkHangupActivityInput (SessionId input) cause)) output.

Definition Originate_request (input : InboundWorkflowInput) (destination gateway profile : string)
    (output : WorkflowOutput) : Request :=
  mkRequest (options_of input)
    (OriginateActivity
       (mkOriginateActivityInput (Timeout input) destination gateway true false Inbound profile))
    output.

Definition Bridge_request (input : InboundWorkflowInput) (originatee : string)
    (output : WorkflowOutput) : Request :=
  mkRequest (options_of input)
    (BridgeActivity (mkBridgeActivityInput (SessionId input) originatee)) output.

(** What an optional string field ends up holding: the zero value for nil,
    the string for a string, and nothing at all (the assertion fails) for
    any other value. *)
Definition optional (v : Value) : option string :=
  match v with
  | VNil => Some EmptyString
  | VString s => Some s
  | _ => None
  end.

(** The requests that run an Originate, a Hangup activity. *)
Definition is_Originate (q : Request) : Prop := ∃ oi, req_activity q = OriginateActivity oi.
Definition is_Hangup (q : Request) : Prop := ∃ hi, req_activity q = HangupActivity hi.

(** The value is there and is not a string: the assertion [v.(string)]
    behind a [!= nil] guard fails on it. *)
Definition holds_non_string (v : Value) : Prop := v ≠ VNil ∧ is_string v = false.

(** The value is nil (no entry, or an entry holding nil) or a string. *)
Definition nil_or_string (v : Value) : Prop := v = VNil ∨ is_string v = true.

(** The step failed: [Get] returned an error or the output says
    [success=false]. *)
Definition unsuccessful (r : Reply) : Prop := r.2 ≠ None ∨ Success r.1 = false.

(** The paths of the workflow once SessionInit has delivered [out] with
    [success=true] and no error: what the run ends in, and the exchanges
    with the engine that follow the one with SessionInit. *)
Inductive Branch (engine : Engine) (input : InboundWorkflowInput) (out : WorkflowOutput)
  : rt.Result Reply -> rt.Log Request Reply -> Prop :=
| Branch_action_panic :
    is_string (index (Metadata_ out) Action) = false ->
    Branch engine input out rt.Panicked []
| Branch_noop (action : string) :
    index (Metadata_ out) Action = VString action ->
    action ≠ "hangup" -> action ≠ "originate" ->
    Branch engine input out (rt.Returned (out, None)) []
| Branch_hangup_panic :
    index (Metadata_ out) Action = VString "hangup" ->
    optional (index (Metadata_ out) HangupCause) = None ->
    Branch engine input out rt.Panicked []
| Branch_hangup (cause : string) :
    index (Metadata_ out) Action = VString "hangup" ->
    optional (index (Metadata_ out) HangupCause) = Some cause ->
    let q := Hangup_request input cause out in
    Branch engine input out (rt.Returned (engine q)) [(q, engine q)]
| Branch_missing_destination :
    index (Metadata_ out) Action = VString "originate" ->
    index (Metadata_ out) Destination = VNil ->
    Branch engine input out (rt.Returned (out, Some (MissingFieldError "destination"))) []
| Branch_missing_gateway :
    index (Metadata_ out) Action = VString "originate" ->
    index (Metadata_ out) Destination ≠ VNil ->
    index (Metadata_ out) Gateway = VNil ->
    Branch engine input out (rt.Returned (out, Some (MissingFieldError "gateway"))) []
| Branch_originate_panic :
    index (Metadata_ out) Action = VString "originate" ->
    index (Metadata_ out) Destination ≠ VNil ->
    index (Metadata_ out) Gateway ≠ VNil ->
    is_string (index (Metadata_ out) Destination) = false
    ∨ is_string (index (Metadata_ out) Gateway) = false
    ∨ optional (index (Metadata_ out) Profile) = None ->
    Branch engine input out rt.Panicked []
| Branch_originate_failed (d g p : string) :
    index (Metadata_ out) Action = VString "originate" ->
    index (Metadata_ out) Destination = VString d ->
    index (Metadata_ out) Gateway = VString g ->
    optional (index (Metadata_ out) Profile) = Some p ->
    let q := Originate_request input d g p out in
    unsuccessful (engine q) ->
    Branch engine input out (rt.Returned (engine q)) [(q, engine q)]
| Branch_missing_uid (d g p : string) (out2 : WorkflowOutput) :
    index (Metadata_ out) Action = VString "originate" ->
    index (Metadata_ out) Destination = VString d ->
    index (Metadata_ out) Gateway = VString g ->
    optional (index (Metadata_ out) Profile) = Some p ->
    let q := Originate_request input d g p out in
    engine q = (out2, None) -> Success out2 = true ->
    index (Metadata_ out2) Uid = VNil ->
    Branch engine input out (rt.Returned (out2, Some (MissingFieldError "uid")))
      [(q, (out2, None))]
| Branch_uid_panic (d g p : string) (out2 : WorkflowOutput) :
    index (Metadata_ out) Action = VString "originate" ->
    index (Metadata_ out) Destination = VString d ->
    index (Metadata_ out) Gateway = VString g ->
    optional (index (Metadata_ out) Profile) = Some p ->
    let q := Originate_request input d g p out in
    engine q = (out2, None) -> Success out2 = true ->
    index (Metadata_ out2) Uid ≠ VNil ->
    is_string (index (Metadata_ out2) Uid) = false ->
    Branch engine input out rt.Panicked [(q, (out2, None))]
| Branch_bridge (d g p : string) (out2 : WorkflowOutput) (X : string) :
    index (Metadata_ out) Action = VString "originate" ->
    index (Metadata_ out) Destination = VString d ->
    index (Metadata_ out) Gateway = VString g ->
    optional (index (Metadata_ out) Profile) = Some p ->
    let q := Originate_request input d g p out in
    engine q = (out2, None) -> Success out2 = true ->
    index (Metadata_ out2) Uid = VString X ->
    let b := Bridge_request input X out2 in
    Branch engine input out (rt.Returned (engine b)) [(q, (out2, None)); (b, engine b)].

(** The paths of a whole run. *)
Inductive Run (engine : Engine) (input : InboundWorkflowInput)
  : rt.Result Reply -> rt.Log Request Reply -> Prop :=
| Run_SessionInit_failed :
    let q := SessionInit_request input in
    unsuccessful (engine q) ->
    Run engine input (rt.Returned (engine q)) [(q, engine q)]
| Run_SessionInit_ok (out : WorkflowOutput) (res : rt.Result Reply)
    (rest : rt.Log Request Reply) :
    let q := SessionInit_request input in
    engine q = (out, None) -> Success out = true ->
    Branch engine input out res rest ->
    Run engine input res ((q, (out, None)) :: rest).

(** ** Reading a log *)

(** Which activity a request runs. *)
Inductive Kind : Type := SessionInit | Hangup_ | Originate_ | Bridge_.

Definition kind_of (a : Activity) : Kind :=
  match a with
  | SessionInitActivity _ => SessionInit
  | HangupActivity _ => Hangup_
  | OriginateActivity _ => Originate_
  | BridgeActivity _ => Bridge_
  end.

(** The activities of a log, in the order they were invoked. *)
Definition kinds (log : rt.Log Request Reply) : list Kind :=
  (fun e => kind_of (req_activity e.1)) <$> log.

(** Each request carries, as the content of [output], what the exchange
    before it delivered; the first one carries [prev]. *)
Fixpoint threaded (prev : WorkflowOutput) (log : rt.Log Request Reply) : Prop :=
  match log with
  | [] => True
  | (q, r) :: rest => req_output q = prev ∧ threaded r.1 rest
  end.

(** The last exchange of a log. *)
Definition last_exchange (log : rt.Log Request Reply) : option (Request * Reply) :=
  last log.

(** The string holds no blank. *)
Fixpoint no_blank (s : string) : bool :=
  match s with
  | EmptyString => true
  | String c s' => negb (Ascii.eqb c (Ascii.ascii_of_nat 32)) && no_blank s'
  end.

(** The client a processor was built with. *)
Definition client_of (p : processors.FreeswitchActivityProcessor) : SocketClient :=
  match p with
  | processors.NewOriginateProcessor c
  | processors.NewBridgeProcessor c
  | processors.NewHangupProcessor c => c
  end.

(** ** A concrete switch client, used to exercise the statements *)

Module sample.
Import activities.

(** A payload is either a well-shaped input or junk. *)
Definition Convert {T} (p : option T) : option T := p.

(** A switch that acknowledges everything with ["+OK"]. *)
Definition switch_ok : SocketClient := fun _ => (VString "+OK", None).

(** A switch whose connection is down. *)
Definition switch_down : SocketClient := fun _ => (VNil, Some (OtherError "disconnected")).

Definition legs : BridgeActivityInput := mkBridgeActivityInput "leg-a" "leg-b".

(** An inbound call. *)
Definition call : InboundWorkflowInput :=
  mkInboundWorkflowInput "1000" "2000" "example.org" "leg-a" "router" 30000000000.

(** A successful output with the given metadata entries. *)
Definition ok (entries : list (string * Value)) : WorkflowOutput :=
  mkWorkflowOutput true (Some (list_to_map entries)).

(** An engine that answers each activity with a fixed reply, whatever the
    input. *)
Definition engine (session_init hangup originate bridge : Reply) : Engine :=
  fun q =>
    match req_activity q with
    | SessionInitActivity _ => session_init
    | HangupActivity _ => hangup
    | OriginateActivity _ => originate
    | BridgeActivity _ => bridge
    end.

Definition hung_up : WorkflowOutput := ok [].
Definition originated : WorkflowOutput := ok [(Uid, VString "leg-b")].
Definition bridged : WorkflowOutput := ok [(Message, VString "+OK")].
Definition unreachable : Reply := (initial_output, Some (OtherError "unreachable")).

(** What SessionInit may decide. *)
Definition decided_originate : WorkflowOutput :=
  ok [(Action, VString "originate"); (Destination, VString "3000"); (Gateway, VString "gw1")].
Definition decided_originate_nowhere : WorkflowOutput :=
  ok [(Action, VString "originate")].
Definition decided_hangup : WorkflowOutput :=
  ok [(Action, VString "hangup"); (HangupCause, VString "NORMAL_CLEARING")].
Definition decided_hangup_numeric : WorkflowOutput :=
  ok [(Action, VString "hangup"); (HangupCause, VNumber 16)].
Definition decided_transfer : WorkflowOutput :=
  ok [(Action, VString "transfer")].
Definition decided_numeric : WorkflowOutput :=
  ok [(Action, VNumber 3)].

(** The engine around a SessionInit that delivers [session_init]; Hangup,
    Originate and Bridge all succeed. *)
Definition deciding (session_init : Reply) : Engine :=
  engine session_init (hung_up, None) (originated, None) (bridged, None).

(** A SessionInit that cannot be run. *)
Definition session_init_unreachable : Engine := deciding unreachable.

(** SessionInit decides to originate; the destination does not answer. *)
Definition no_answer : Reply :=
  (mkWorkflowOutput false (Some ∅), Some (OtherError "NO_ANSWER")).
Definition originate_unanswered : Engine :=
  engine (decided_originate, None) (hung_up, None) no_answer (bridged, None).

(** SessionInit decides to originate; Originate reports the leg as a
    number. *)
Definition originated_numeric : WorkflowOutput := ok [(Uid, VNumber 7)].
Definition originate_numeric_uid : Engine :=
  engine (decided_originate, None) (hung_up, None) (originated_numeric, None) (bridged, None).

End sample.

(** * Properties *)

Ltac unfold_rt :=
  unfold rt.run, activities.Handler, activities.Api,
    workflows.Handler, workflows.ExecuteActivity_Get, workflows.optional_string,
    assert_string, mbind, mret, rt_bind, rt_ret,
    rt.bind, rt.ret, rt.call, rt.panic in *.

(** Closes a path that the hypotheses on the metadata rule out. *)
Ltac settle :=
  repeat match goal with
         | H : index ?m ?k = _, H' : context [index ?m ?k] |- _ => rewrite H in H'
         end;
  cbn in *; simplify_eq; try done; try congruence; try (intuition congruence).

(** ** BridgeActivity *)

Section BridgeActivity_facts.
Import activities.
Context {Payload : Type}.
Variable Convert : Payload -> option BridgeActivityInput.
Variable fsClient : SocketClient.

Lemma BridgeActivity_unconvertible (i : Payload) :
  Convert i = None ->
  rt.run (Handler Convert i) fsClient
  = (rt.Returned (initial_output,
                  Some (WorkflowInputError "Cannot cast input to BridgeActivityInput")),
     []).
Proof. intros Hc. unfold_rt. by rewrite Hc. Qed.

(** The whole behaviour on a converted input, by the switch's reply. *)
Lemma BridgeActivity_converted (i : Payload) (input : BridgeActivityInput) :
  Convert i = Some input ->
  let cmd := bridge_command (Originator input) (Originatee input) in
  rt.run (Handler Convert i) fsClient
  = (rt.Returned
       match fsClient cmd with
       | (_, Some e) => (initial_output, Some e)
       | (res, None) => (mkWorkflowOutput true (Some (<[Message := res]> ∅)), None)
       end,
     [(cmd, fsClient cmd)]).
Proof.
  intros Hc cmd. subst cmd. unfold_rt. rewrite Hc.
  unfold bridge_command, Sprintf_v_v. cbn.
  by destruct (fsClient _) as [res [e|]].
Qed.

(** ** C3: for every originator [A] and originatee [B], an invocation whose
    input converts to [{originator: A, originatee: B}] issues exactly one
    [SwitchClient.Api] call, and its command is
    [{appName: "uuid_bridge", appArgs: A ++ " " ++ B}]. *)
Theorem BridgeActivity_issues_one_uuid_bridge (i : Payload) (A B : string) :
  Convert i = Some (mkBridgeActivityInput A B) ->
  issued (rt.run (Handler Convert i) fsClient).2
  = [mkCommand "uuid_bridge" (A +:+ " " +:+ B)].
Proof.
  intros Hc. by rewrite (BridgeActivity_converted _ _ Hc).
Qed.

End BridgeActivity_facts.

Lemma BridgeActivity_issues_one_uuid_bridge_witness :
  issued (rt.run (activities.Handler sample.Convert (Some sample.legs)) sample.switch_ok).2
  = [mkCommand "uuid_bridge" "leg-a leg-b"].
Proof.
  apply (BridgeActivity_issues_one_uuid_bridge sample.Convert sample.switch_ok
           (Some sample.legs) "leg-a" "leg-b").
  reflexivity.
Defined.

(** The two outcomes of the one exchange with the switch. *)
Example bridge_acknowledged :
  rt.run (activities.Handler sample.Convert (Some sample.legs)) sample.switch_ok
  = (rt.Returned (mkWorkflowOutput true (Some {[ Message := VString "+OK" ]}), None),
     [(mkCommand "uuid_bridge" "leg-a leg-b", (VString "+OK", None))]).
Proof. reflexivity. Qed.

Example bridge_switch_down :
  rt.run (activities.Handler sample.Convert (Some sample.legs)) sample.switch_down
  = (rt.Returned (initial_output, Some (OtherError "disconnected")),
     [(mkCommand "uuid_bridge" "leg-a leg-b", (VNil, Some (OtherError "disconnected")))]).
Proof. reflexivity. Qed.

(** ** ProcessorFactory *)

Section ProcessorFactory_facts.
Import processors.
Variable f : FreeswitchProcessorFactoryImpl.

Lemma CreateActivityProcessor_originate :
  CreateActivityProcessor f "originate" = (Some (NewOriginateProcessor (fsClient f)), None).
Proof. reflexivity. Qed.

Lemma CreateActivityProcessor_bridge :
  CreateActivityProcessor f "bridge" = (Some (NewBridgeProcessor (fsClient f)), None).
Proof. reflexivity. Qed.

Lemma CreateActivityProcessor_hangup :
  CreateActivityProcessor f "hangup" = (Some (NewHangupProcessor (fsClient f)), None).
Proof. reflexivity. Qed.

Lemma CreateActivityProcessor_default (s : string) :
  s ≠ "originate" -> s ≠ "bridge" -> s ≠ "hangup" ->
  CreateActivityProcessor f s = (None, Some (WorkflowInputError "unsupported action")).
Proof.
  intros Ho Hb Hh. unfold CreateActivityProcessor.
  apply String.eqb_neq in Ho, Hb, Hh.
  unfold ActionOriginate, ActionBridge, ActionHangup.
  by rewrite Ho, Hb, Hh.
Qed.

(** ** C6: for every action key [s], [CreateActivityProcessor] returns the
    Originate, Bridge or Hangup processor (and no error) exactly when [s]
    is ["originate"], ["bridge"] or ["hangup"] respectively; for every other
    string it returns no processor and the error built by
    [NewWorkflowInputError("unsupported action")]. *)
Theorem CreateActivityProcessor_dispatch (s : string) :
  ((∃ c, (CreateActivityProcessor f s).1 = Some (NewOriginateProcessor c)) <-> s = "originate")
  ∧ ((∃ c, (CreateActivityProcessor f s).1 = Some (NewBridgeProcessor c)) <-> s = "bridge")
  ∧ ((∃ c, (CreateActivityProcessor f s).1 = Some (NewHangupProcessor c)) <-> s = "hangup")
  ∧ (s = "originate" ->
     CreateActivityProcessor f s = (Some (NewOriginateProcessor (fsClient f)), None))
  ∧ (s = "bridge" ->
     CreateActivityProcessor f s = (Some (NewBridgeProcessor (fsClient f)), None))
  ∧ (s = "hangup" ->
     CreateActivityProcessor f s = (Some (NewHangupProcessor (fsClient f)), None))
  ∧ (s ≠ "originate" -> s ≠ "bridge" -> s ≠ "hangup" ->
     CreateActivityProcessor f s = (None, Some (WorkflowInputError "unsupported action"))).
Proof.
  destruct (decide (s = "originate")) as [->|Ho];
    [| destruct (decide (s = "bridge")) as [->|Hb];
       [| destruct (decide (s = "hangup")) as [->|Hh];
          [| rewrite (CreateActivityProcessor_default s Ho Hb Hh)]]].
  all: cbn; split_and!; try done.
  all: split; first [done | by intros [c [=]] | by eauto].
Qed.

End ProcessorFactory_facts.

Lemma CreateActivityProcessor_dispatch_witness :
  processors.CreateActivityProcessor
    (processors.NewFreeswitchProcessorFactory sample.switch_ok) "bridge"
  = (Some (processors.NewBridgeProcessor sample.switch_ok), None)
  ∧ processors.CreateActivityProcessor
      (processors.NewFreeswitchProcessorFactory sample.switch_ok) "unknown"
    = (None, Some (WorkflowInputError "unsupported action")).
Proof.
  split.
  - apply (CreateActivityProcessor_dispatch
             (processors.NewFreeswitchProcessorFactory sample.switch_ok) "bridge").
    reflexivity.
  - apply (CreateActivityProcessor_dispatch
             (processors.NewFreeswitchProcessorFactory sample.switch_ok) "unknown");
      discriminate.
Defined.

(** ** InboundWorkflow *)

Lemma failed_true (r : Reply) : failed r = true <-> unsuccessful r.
Proof.
  destruct r as [out [e|]]; unfold unsuccessful; cbn.
  - split; [by left | done].
  - destruct (Success out); cbn; split; try done; [by intros [|] | by right].
Qed.

Lemma failed_false (r : Reply) : failed r = false <-> r.2 = None ∧ Success r.1 = true.
Proof.
  destruct r as [out [e|]]; cbn.
  - split; [done | by intros []].
  - destruct (Success out); cbn; split; try done. by intros [].
Qed.

Section InboundWorkflow_facts.
Context {Payload : Type}.
Variable Convert : Payload -> option InboundWorkflowInput.
Variable engine : Engine.

Lemma InboundWorkflow_unconvertible (i : Payload) :
  Convert i = None ->
  rt.run (Handler Convert i) engine
  = (rt.Returned (initial_output,
                  Some (WorkflowInputError "Cannot cast input to InboundWorkflowInput")),
     []).
Proof. intros Hc. unfold_rt. by rewrite Hc. Qed.

(** Every run on a converted input takes one of the paths of [Run]. *)
Lemma InboundWorkflow_Run (i : Payload) (input : InboundWorkflowInput) :
  Convert i = Some input ->
  ∃ res log, rt.run (Handler Convert i) engine = (res, log) ∧ Run engine input res log.
Proof.
  intros Hc. unfold_rt. rewrite Hc. cbn [app].
  fold initial_output. fold (options_of input). fold (SessionInit_request input).
  destruct (engine (SessionInit_request input)) as [out err] eqn:Hsi.
  destruct (failed (out, err)) eqn:Hf.
  { eexists _, _. split; [done|]. rewrite <- Hsi.
    apply Run_SessionInit_failed. apply failed_true. by rewrite Hsi. }
  apply failed_false in Hf as [Herr Hs]. cbn in Herr, Hs. subst err.
  assert (Hleaf : ∀ res rest,
             Branch engine input out res rest ->
             Run engine input res ((SessionInit_request input, (out, None)) :: rest))
    by (intros; by eapply Run_SessionInit_ok).
  destruct (index (Metadata_ out) Action) as [|action| |] eqn:Ha; cbn;
    try (eexists _, _; split; [reflexivity|]; apply Hleaf, Branch_action_panic; by rewrite Ha).
  destruct (String.eqb_spec action Bridge) as [->|Hb].
  { eexists _, _; split; [reflexivity|]. apply Hleaf. by eapply Branch_noop. }
  destruct (String.eqb_spec action Hangup) as [->|Hh].
  { destruct (index (Metadata_ out) HangupCause) as [|cause| |] eqn:Hcause; cbn;
      try (eexists _, _; split; [reflexivity|]; apply Hleaf, Branch_hangup_panic;
           [done | by rewrite Hcause]).
    all: destruct (engine (mkRequest _ (HangupActivity _) _)) as [out2 [e|]] eqn:Hh; cbn.
    all: eexists _, _; split; [reflexivity|]; rewrite <- Hh.
    all: apply Hleaf, Branch_hangup; [done | by rewrite Hcause]. }
  destruct (String.eqb_spec action Originate) as [->|Ho]; cycle 1.
  { eexists _, _; split; [reflexivity|]. apply Hleaf. by eapply Branch_noop. }
  destruct (index (Metadata_ out) Destination) as [|d| |] eqn:Hd; cbn;
    [ eexists _, _; split; [reflexivity|]; by apply Hleaf, Branch_missing_destination | ..].
  all: destruct (index (Metadata_ out) Gateway) as [|g| |] eqn:Hg; cbn;
    try (eexists _, _; split; [reflexivity|]; apply Hleaf, Branch_missing_gateway;
         [done | by rewrite Hd | done]).
  all: try (eexists _, _; split; [reflexivity|]; apply Hleaf, Branch_originate_panic;
            [done | by rewrite Hd | by rewrite Hg | rewrite Hd, Hg; cbn; by auto]).
  destruct (index (Metadata_ out) Profile) as [|p| |] eqn:Hp; cbn;
    try (eexists _, _; split; [reflexivity|]; apply Hleaf, Branch_originate_panic;
         [done | by rewrite Hd | by rewrite Hg | rewrite Hp; cbn; by auto]).
  all: destruct (engine (mkRequest _ (OriginateActivity _) _)) as [out2 err2] eqn:Hq.
  all: destruct (failed (out2, err2)) eqn:Hf2; pose proof Hf2 as Hf2'; cbn in Hf2';
    rewrite Hf2'; cbn;
    [ eexists _, _; split; [reflexivity|]; rewrite <- Hq;
      apply Hleaf, Branch_originate_failed; [done..| by rewrite Hp | ];
      apply failed_true; unfold Originate_request; by rewrite Hq | ].
  all: apply failed_false in Hf2 as [Herr2 Hs2]; cbn in Herr2, Hs2; subst err2.
  all: destruct (index (Metadata_ out2) Uid) as [|X| |] eqn:Hu; cbn.
  all: try (eexists _, _; split; [reflexivity|]; eapply Hleaf, Branch_missing_uid;
            [done..| by rewrite Hp | done | done | done]).
  all: try (eexists _, _; split; [reflexivity|]; eapply Hleaf, Branch_uid_panic;
            [done..| by rewrite Hp | done | done | by rewrite Hu | by rewrite Hu]).
  all: destruct (engine (mkRequest _ (BridgeActivity _) _)) as [out3 err3] eqn:Hq3.
  all: destruct err3 as [e|], (Success out3) eqn:Hs3; cbn.
  all: eexists _, _; split; [reflexivity|]; rewrite <- Hq3.
  all: eapply Hleaf, Branch_bridge; [done..| by rewrite Hp | done | done | done].
Qed.

(** After a successful SessionInit the run continues along a [Branch]. *)
Lemma InboundWorkflow_Branch (i : Payload) (input : InboundWorkflowInput)
    (out : WorkflowOutput) :
  Convert i = Some input ->
  engine (SessionInit_request input) = (out, None) -> Success out = true ->
  ∃ res rest,
    rt.run (Handler Convert i) engine
    = (res, (SessionInit_request input, (out, None)) :: rest)
    ∧ Branch engine input out res rest.
Proof.
  intros Hc Hsi Hs.
  destruct (InboundWorkflow_Run i input Hc) as (res & log & Hrun & HR).
  inversion HR as [q Hu | out' res' rest q Hsi' Hs' HB]; subst.
  - subst q. rewrite Hsi in Hu. destruct Hu as [Hu|Hu]; cbn in Hu; congruence.
  - subst q. rewrite Hsi in Hsi'. injection Hsi' as <-. eauto.
Qed.

(** ** C2: when SessionInit succeeds with action ["originate"] and the
    metadata lacks [destination], the workflow returns SessionInit's output
    with the missing-field error for ["destination"]; when [destination] is
    there and [gateway] is lacking, with the one for ["gateway"].  In both
    cases the exchange with SessionInit is the only one: Originate is never
    invoked. *)
Theorem originate_requires_destination_then_gateway
    (i : Payload) (input : InboundWorkflowInput) (out : WorkflowOutput) :
  Convert i = Some input ->
  engine (SessionInit_request input) = (out, None) -> Success out = true ->
  index (Metadata_ out) Action = VString "originate" ->
  (index (Metadata_ out) Destination = VNil ->
   rt.run (Handler Convert i) engine
   = (rt.Returned (out, Some (MissingFieldError "destination")),
      [(SessionInit_request input, (out, None))]))
  ∧ (index (Metadata_ out) Destination ≠ VNil ->
     index (Metadata_ out) Gateway = VNil ->
     rt.run (Handler Convert i) engine
     = (rt.Returned (out, Some (MissingFieldError "gateway")),
        [(SessionInit_request input, (out, None))])).
Proof.
  intros Hc Hsi Hs Ha.
  destruct (InboundWorkflow_Branch i input out Hc Hsi Hs) as (res & rest & -> & HB).
  split; [intros Hd | intros Hd Hg].
  all: inversion HB; subst; settle.
Qed.

(** ** C4, as amended: when SessionInit succeeds with action ["hangup"] and
    the metadata's [hangupCause] is a string, or is not there, the workflow
    invokes Hangup with the input's session id and that cause (the empty
    cause when there is none), and returns what Hangup delivers, output and
    error, whatever its success flag. *)
Theorem hangup_with_cause_returns_verbatim
    (i : Payload) (input : InboundWorkflowInput) (out : WorkflowOutput) (cause : string) :
  Convert i = Some input ->
  engine (SessionInit_request input) = (out, None) -> Success out = true ->
  index (Metadata_ out) Action = VString "hangup" ->
  index (Metadata_ out) HangupCause = VString cause
  ∨ (index (Metadata_ out) HangupCause = VNil ∧ cause = EmptyString) ->
  let q := mkRequest (mkActivityOptions Second (Timeout input))
             (HangupActivity (mkHangupActivityInput (SessionId input) cause)) out in
  rt.run (Handler Convert i) engine
  = (rt.Returned (engine q), [(SessionInit_request input, (out, None)); (q, engine q)]).
Proof.
  intros Hc Hsi Hs Ha Hcause q.
  destruct (InboundWorkflow_Branch i input out Hc Hsi Hs) as (res & rest & -> & HB).
  assert (Hopt : optional (index (Metadata_ out) HangupCause) = Some cause)
    by (destruct Hcause as [->|[-> ->]]; done).
  inversion HB; subst; settle.
Qed.

(** ** C9, as amended: when SessionInit succeeds with a string under
    [action] that is neither ["hangup"] nor ["originate"] (["bridge"] or any
    unrecognized string), the workflow invokes no further activity and
    returns SessionInit's successful output with no error. *)
Theorem other_action_is_noop
    (i : Payload) (input : InboundWorkflowInput) (out : WorkflowOutput) (action : string) :
  Convert i = Some input ->
  engine (SessionInit_request input) = (out, None) -> Success out = true ->
  index (Metadata_ out) Action = VString action ->
  action ≠ "hangup" -> action ≠ "originate" ->
  rt.run (Handler Convert i) engine
  = (rt.Returned (out, None), [(SessionInit_request input, (out, None))]).
Proof.
  intros Hc Hsi Hs Ha Hh Ho.
  destruct (InboundWorkflow_Branch i input out Hc Hsi Hs) as (res & rest & -> & HB).
  inversion HB; subst; settle.
Qed.

(** ** X7: with [destination] and [gateway] strings and [profile] a string
    or not there, Originate is the second activity invoked: rejection
    allowed, no auto-answer, inbound direction, the profile if any. *)
Lemma originate_is_invoked
    (i : Payload) (input : InboundWorkflowInput) (out : WorkflowOutput) (d g p : string) :
  Convert i = Some input ->
  engine (SessionInit_request input) = (out, None) -> Success out = true ->
  index (Metadata_ out) Action = VString "originate" ->
  index (Metadata_ out) Destination = VString d ->
  index (Metadata_ out) Gateway = VString g ->
  optional (index (Metadata_ out) Profile) = Some p ->
  let q := mkRequest (mkActivityOptions Second (Timeout input))
             (OriginateActivity
                (mkOriginateActivityInput (Timeout input) d g true false Inbound p))
             out in
  ∃ rest, (rt.run (Handler Convert i) engine).2
          = (SessionInit_request input, (out, None)) :: (q, engine q) :: rest.
Proof.
  intros Hc Hsi Hs Ha Hd Hg Hp q.
  destruct (InboundWorkflow_Branch i input out Hc Hsi Hs) as (res & rest & -> & HB).
  inversion HB; subst; repeat match goal with x := _ |- _ => subst x end; settle.
  all: unfold Originate_request, options_of in *;
    repeat match goal with H : engine _ = (_, _) |- _ => rewrite H end;
    eexists; reflexivity.
Qed.

(** ** C1: in every run where SessionInit succeeds with action ["originate"],
    [destination] and [gateway] being there, and the Originate activity is
    run and succeeds with [out2]: if [out2] holds the string [X] under [uid],
    Bridge is invoked next, with originator the input's session id and
    originatee [X], and the workflow returns what Bridge delivers; if [out2]
    holds nothing under [uid], the workflow returns the missing-field error
    for ["uid"] and Bridge is not invoked. *)
Theorem originate_then_bridge
    (i : Payload) (input : InboundWorkflowInput) (out : WorkflowOutput)
    (res : rt.Result Reply) (log : rt.Log Request Reply)
    (q : Request) (out2 : WorkflowOutput) :
  Convert i = Some input ->
  engine (SessionInit_request input) = (out, None) -> Success out = true ->
  index (Metadata_ out) Action = VString "originate" ->
  index (Metadata_ out) Destination ≠ VNil ->
  index (Metadata_ out) Gateway ≠ VNil ->
  rt.run (Handler Convert i) engine = (res, log) ->
  (q, (out2, None)) ∈ log -> is_Originate q -> Success out2 = true ->
  (∀ X, index (Metadata_ out2) Uid = VString X ->
     let b := mkRequest (mkActivityOptions Second (Timeout input))
                (BridgeActivity (mkBridgeActivityInput (SessionId input) X)) out2 in
     log = [(SessionInit_request input, (out, None)); (q, (out2, None)); (b, engine b)]
     ∧ res = rt.Returned (engine b))
  ∧ (index (Metadata_ out2) Uid = VNil ->
     log = [(SessionInit_request input, (out, None)); (q, (out2, None))]
     ∧ res = rt.Returned (out2, Some (MissingFieldError "uid"))).
Proof.
  intros Hc Hsi Hs Ha Hd Hg Hrun Hin [oi Hoi] Hs2.
  destruct (InboundWorkflow_Branch i input out Hc Hsi Hs) as (res' & rest & Hrun' & HB).
  rewrite Hrun' in Hrun. injection Hrun as <- <-.
  apply elem_of_cons in Hin as [Hin|Hin]; [by injection Hin as -> _|].
  inversion HB; subst; try (by apply elem_of_nil in Hin); try congruence.
  all: repeat match goal with x := _ |- _ => subst x end.
  all: set_unfold in Hin; destruct_or?; try done; simplify_eq.
  all: try match goal with
           | H : (_, None) = engine ?q, H' : unsuccessful (engine ?q) |- _ =>
               rewrite <- H in H'; destruct H'; cbn in *; congruence
           end.
  all: split; [intros X' HX | intros HX]; cbn; settle.
Qed.

Lemma successful_not_unsuccessful (out : WorkflowOutput) :
  Success out = true -> ¬ unsuccessful (out, None).
Proof. intros Hs [H|H]; cbn in H; congruence. Qed.

(** ** C5: if SessionInit delivers an error or [success=false], the workflow
    returns that output and error at once and the exchange with SessionInit
    is the only one; and in every run, an exchange that delivered an error
    or [success=false] is the last one. *)
Theorem fail_fast (i : Payload) :
  (∀ input, Convert i = Some input ->
     let q := SessionInit_request input in
     unsuccessful (engine q) ->
     rt.run (Handler Convert i) engine = (rt.Returned (engine q), [(q, engine q)]))
  ∧ (∀ k q r,
       (rt.run (Handler Convert i) engine).2 !! k = Some (q, r) ->
       unsuccessful r ->
       length (rt.run (Handler Convert i) engine).2 = S k).
Proof.
  split.
  - intros input Hc q Hu.
    destruct (InboundWorkflow_Run i input Hc) as (res & log & -> & HR).
    inversion HR as [q' Hu' | out res' rest q' Hsi Hs HB]; subst; [done|].
    subst q q'. rewrite Hsi in Hu. by apply successful_not_unsuccessful in Hu.
  - intros k q r. destruct (Convert i) as [input|] eqn:Hc;
      [| by rewrite (InboundWorkflow_unconvertible i Hc)].
    destruct (InboundWorkflow_Run i input Hc) as (res & log & -> & HR). cbn.
    inversion HR as [q' Hu' | out res' rest q' Hsi Hs HB]; subst.
    { destruct k; [done | by intros ?%lookup_lt_Some%Nat.succ_lt_mono%Nat.nlt_0_r]. }
    inversion HB; subst; repeat match goal with x := _ |- _ => subst x end.
    all: repeat match goal with
                | H : Success _ = true |- _ => apply successful_not_unsuccessful in H
                end.
    all: destruct k as [|[|[|k]]]; cbn; intros Hk Hu; simplify_eq; try done.
Qed.

Lemma holds_non_string_optional (v : Value) : holds_non_string v <-> optional v = None.
Proof.
  destruct v; unfold holds_non_string; cbn; split; try done; try (by intros []).
Qed.

Lemma nil_or_string_optional (v : Value) : nil_or_string v <-> is_Some (optional v).
Proof.
  destruct v; unfold nil_or_string; cbn; split; intros H;
    try by (eauto || destruct H as [? ?] || destruct H).
Qed.

(** ** C10: after a successful SessionInit, the unchecked assertions
    [.(string)] make the workflow panic
    - when [action] is lacking or holds anything but a string;
    - on action ["hangup"], when [hangupCause] holds a non-string value;
    - on action ["originate"] with [destination] and [gateway] both there
      (so that they are read), when either holds a non-string value, or
      [profile] does;
    - after a successful Originate, when its output holds a non-string
      value under [uid];
    and in every run where [action] is a string and each of the other
    five, where read, is a string or not there, nothing panics: the
    workflow returns. *)
Theorem unchecked_type_assertions
    (i : Payload) (input : InboundWorkflowInput) (out : WorkflowOutput)
    (res : rt.Result Reply) (log : rt.Log Request Reply) :
  Convert i = Some input ->
  engine (SessionInit_request input) = (out, None) -> Success out = true ->
  rt.run (Handler Convert i) engine = (res, log) ->
  (is_string (index (Metadata_ out) Action) = false -> res = rt.Panicked)
  ∧ (index (Metadata_ out) Action = VString "hangup" ->
     holds_non_string (index (Metadata_ out) HangupCause) -> res = rt.Panicked)
  ∧ (index (Metadata_ out) Action = VString "originate" ->
     index (Metadata_ out) Destination ≠ VNil ->
     index (Metadata_ out) Gateway ≠ VNil ->
     is_string (index (Metadata_ out) Destination) = false
     ∨ is_string (index (Metadata_ out) Gateway) = false
     ∨ holds_non_string (index (Metadata_ out) Profile) ->
     res = rt.Panicked)
  ∧ (∀ q out2,
       (q, (out2, None)) ∈ log -> is_Originate q -> Success out2 = true ->
       holds_non_string (index (Metadata_ out2) Uid) -> res = rt.Panicked)
  ∧ (is_string (index (Metadata_ out) Action) = true ->
     (index (Metadata_ out) Action = VString "hangup" ->
      nil_or_string (index (Metadata_ out) HangupCause)) ->
     (index (Metadata_ out) Action = VString "originate" ->
      index (Metadata_ out) Destination ≠ VNil ->
      index (Metadata_ out) Gateway ≠ VNil ->
      is_string (index (Metadata_ out) Destination) = true
      ∧ is_string (index (Metadata_ out) Gateway) = true
      ∧ nil_or_string (index (Metadata_ out) Profile)) ->
     (∀ q out2,
        (q, (out2, None)) ∈ log -> is_Originate q -> Success out2 = true ->
        nil_or_string (index (Metadata_ out2) Uid)) ->
     ∃ output err, res = rt.Returned (output, err)).
Proof.
  intros Hc Hsi Hs Hrun.
  destruct (InboundWorkflow_Branch i input out Hc Hsi Hs) as (res' & rest & Hrun' & HB).
  rewrite Hrun' in Hrun. injection Hrun as <- <-.
  split_and!.
  - intros Ha. inversion HB; subst; settle.
  - intros Ha Hcause%holds_non_string_optional. inversion HB; subst; settle.
  - intros Ha Hd Hg Hbad. rewrite holds_non_string_optional in Hbad.
    inversion HB; subst; settle.
  - intros q out2 Hin [oi Hoi] Hs2 Hu%holds_non_string_optional.
    apply elem_of_cons in Hin as [Hin|Hin]; [by injection Hin as -> _|].
    inversion HB; subst; try (by apply elem_of_nil in Hin).
    all: repeat match goal with x := _ |- _ => subst x end.
    all: set_unfold in Hin; destruct_or?; try done; simplify_eq.
    all: try match goal with
             | H : (_, None) = engine ?q, H' : unsuccessful (engine ?q) |- _ =>
                 rewrite <- H in H'; destruct H'; cbn in *; congruence
             end.
    all: settle.
  - intros Ha Hcause Horig Huid.
    inversion HB; subst; repeat match goal with x := _ |- _ => subst x end.
    all: try match goal with
             | |- ∃ _ _, rt.Returned ?r = _ => exists r.1, r.2; by destruct r
             end.
    + settle.
    + apply nil_or_string_optional in Hcause as [? ?]; [congruence | done].
    + destruct Horig as (Hsd & Hsg & [p Hp]%nil_or_string_optional); [done..|].
      destruct_or?; congruence.
    + exfalso.
      match goal with
      | H : engine ?q = (?o, None) |- _ =>
          destruct (Huid q o) as [Hn|Hstr];
            [apply (list_elem_of_lookup_2 _ 1); reflexivity | by eexists | done | done
            | congruence]
      end.
Qed.

End InboundWorkflow_facts.

(** ** The output envelope *)


(** ** C7: when the payload cannot be converted, the Bridge activity returns
    [success=false] with the input error and issues no switch command, and
    the workflow returns [success=false] with the input error and invokes
    no activity. *)
Theorem unconvertible_input_is_rejected :
  (∀ (Payload : Type) (Convert : Payload -> option BridgeActivityInput)
     (fsClient : SocketClient) (i : Payload),
     Convert i = None ->
     rt.run (activities.Handler Convert i) fsClient
     = (rt.Returned (mkWorkflowOutput false (Some ∅),
                     Some (WorkflowInputError "Cannot cast input to BridgeActivityInput")),
        []))
  ∧ (∀ (Payload : Type) (Convert : Payload -> option InboundWorkflowInput)
       (engine : Engine) (i : Payload),
       Convert i = None ->
       rt.run (workflows.Handler Convert i) engine
       = (rt.Returned (mkWorkflowOutput false (Some ∅),
                       Some (WorkflowInputError "Cannot cast input to InboundWorkflowInput")),
          [])).
Proof.
  split; intros Payload Convert env i Hc.
  - exact (BridgeActivity_unconvertible Convert env i Hc).
  - exact (InboundWorkflow_unconvertible Convert env i Hc).
Qed.


(** ** The statements at concrete runs *)

Lemma unconvertible_input_is_rejected_witness :
  rt.run (activities.Handler (@sample.Convert BridgeActivityInput) None) sample.switch_ok
  = (rt.Returned (initial_output,
                  Some (WorkflowInputError "Cannot cast input to BridgeActivityInput")),
     [])
  ∧ rt.run (workflows.Handler (@sample.Convert InboundWorkflowInput) None)
      (sample.deciding (sample.decided_hangup, None))
    = (rt.Returned (initial_output,
                    Some (WorkflowInputError "Cannot cast input to InboundWorkflowInput")),
       []).
Proof.
  split.
  - apply (proj1 unconvertible_input_is_rejected). reflexivity.
  - apply (proj2 unconvertible_input_is_rejected). reflexivity.
Defined.



Lemma originate_requires_destination_then_gateway_witness :
  rt.run (workflows.Handler sample.Convert (Some sample.call))
    (sample.deciding (sample.decided_originate_nowhere, None))
  = (rt.Returned (sample.decided_originate_nowhere, Some (MissingFieldError "destination")),
     [(SessionInit_request sample.call, (sample.decided_originate_nowhere, None))]).
Proof.
  apply (originate_requires_destination_then_gateway sample.Convert
           (sample.deciding (sample.decided_originate_nowhere, None))
           (Some sample.call) sample.call sample.decided_originate_nowhere);
    reflexivity.
Defined.

Lemma hangup_with_cause_returns_verbatim_witness :
  rt.run (workflows.Handler sample.Convert (Some sample.call))
    (sample.deciding (sample.decided_hangup, None))
  = (rt.Returned (sample.hung_up, None),
     [(SessionInit_request sample.call, (sample.decided_hangup, None));
      (Hangup_request sample.call "NORMAL_CLEARING" sample.decided_hangup,
       (sample.hung_up, None))]).
Proof.
  apply (hangup_with_cause_returns_verbatim sample.Convert
           (sample.deciding (sample.decided_hangup, None))
           (Some sample.call) sample.call sample.decided_hangup "NORMAL_CLEARING");
    try reflexivity.
  left. reflexivity.
Defined.

(** C4 as the spec states it fails: SessionInit succeeds with action
    ["hangup"] and the metadata contains a [hangupCause], the number 16; the
    workflow panics on the assertion and Hangup is never invoked. *)
Lemma hangup_numeric_cause_panics :
  let engine := sample.deciding (sample.decided_hangup_numeric, None) in
  let run := rt.run (workflows.Handler sample.Convert (Some sample.call)) engine in
  engine (SessionInit_request sample.call) = (sample.decided_hangup_numeric, None)
  ∧ Success sample.decided_hangup_numeric = true
  ∧ index (Metadata_ sample.decided_hangup_numeric) Action = VString "hangup"
  ∧ index (Metadata_ sample.decided_hangup_numeric) HangupCause = VNumber 16
  ∧ run = (rt.Panicked,
           [(SessionInit_request sample.call, (sample.decided_hangup_numeric, None))])
  ∧ ¬ ∃ q r, (q, r) ∈ run.2 ∧ is_Hangup q.
Proof.
  cbv zeta. split_and!; try reflexivity.
  intros (q & r & Hin & hi & Hq). vm_compute in Hin.
  apply elem_of_cons in Hin as [[= -> _]|Hin]; [|by apply elem_of_nil in Hin].
  discriminate Hq.
Qed.

Lemma other_action_is_noop_witness :
  rt.run (workflows.Handler sample.Convert (Some sample.call))
    (sample.deciding (sample.decided_transfer, None))
  = (rt.Returned (sample.decided_transfer, None),
     [(SessionInit_request sample.call, (sample.decided_transfer, None))]).
Proof.
  apply (other_action_is_noop sample.Convert
           (sample.deciding (sample.decided_transfer, None))
           (Some sample.call) sample.call sample.decided_transfer "transfer");
    (reflexivity || discriminate).
Defined.

(** C9 as the spec states it fails: SessionInit succeeds with the number 3
    under [action], a value that is none of the three literals; the workflow
    panics instead of completing. *)
Lemma numeric_action_panics :
  let engine := sample.deciding (sample.decided_numeric, None) in
  engine (SessionInit_request sample.call) = (sample.decided_numeric, None)
  ∧ Success sample.decided_numeric = true
  ∧ index (Metadata_ sample.decided_numeric) Action = VNumber 3
  ∧ VNumber 3 ≠ VString "bridge" ∧ VNumber 3 ≠ VString "hangup"
  ∧ VNumber 3 ≠ VString "originate"
  ∧ rt.run (workflows.Handler sample.Convert (Some sample.call)) engine
    = (rt.Panicked, [(SessionInit_request sample.call, (sample.decided_numeric, None))]).
Proof. cbv zeta. split_and!; (reflexivity || discriminate). Qed.

Lemma originate_then_bridge_witness :
  let run := rt.run (workflows.Handler sample.Convert (Some sample.call))
               (sample.deciding (sample.decided_originate, None)) in
  run.2 = [(SessionInit_request sample.call, (sample.decided_originate, None));
           (Originate_request sample.call "3000" "gw1" "" sample.decided_originate,
            (sample.originated, None));
           (Bridge_request sample.call "leg-b" sample.originated, (sample.bridged, None))]
  ∧ run.1 = rt.Returned (sample.bridged, None).
Proof.
  cbv zeta.
  refine (proj1 (originate_then_bridge sample.Convert
                   (sample.deciding (sample.decided_originate, None))
                   (Some sample.call) sample.call sample.decided_originate _ _
                   (Originate_request sample.call "3000" "gw1" "" sample.decided_originate)
                   sample.originated _ _ _ _ _ _ _ _ _ _) "leg-b" _);
    try reflexivity; try discriminate.
  all: match goal with
       | |- _ = (_, _) => apply surjective_pairing
       | |- _ ∈ _ => apply (list_elem_of_lookup_2 _ 1); reflexivity
       | |- is_Originate _ => eexists; reflexivity
       end.
Defined.

Lemma fail_fast_witness :
  rt.run (workflows.Handler sample.Convert (Some sample.call)) sample.session_init_unreachable
  = (rt.Returned sample.unreachable, [(SessionInit_request sample.call, sample.unreachable)]).
Proof.
  apply (proj1 (fail_fast sample.Convert sample.session_init_unreachable (Some sample.call))
           sample.call).
  - reflexivity.
  - left. discriminate.
Defined.

Lemma unchecked_type_assertions_witness :
  (rt.run (workflows.Handler sample.Convert (Some sample.call))
     (sample.deciding (sample.decided_numeric, None))).1
  = rt.Panicked.
Proof.
  refine (proj1 (unchecked_type_assertions sample.Convert
                   (sample.deciding (sample.decided_numeric, None))
                   (Some sample.call) sample.call sample.decided_numeric _ _ _ _ _ _) _);
    try reflexivity.
  apply surjective_pairing.
Defined.

(** * Further properties of the workflow *)

(** Splits a [Run] into its paths. *)
Ltac paths HR :=
  let HB := fresh "HB" in
  inversion HR as [? ? | ? ? ? ? ? ? HB]; subst; try (inversion HB; subst);
  repeat match goal with x := _ |- _ => subst x end.

(** Splits a membership in an explicit log into its entries. *)
Ltac entries Hin :=
  set_unfold in Hin; destruct_or?; try done; simplify_eq.

Section InboundWorkflow_more.
Context {Payload : Type}.
Variable Convert : Payload -> option InboundWorkflowInput.
Variable engine : Engine.

(** ** X1: every activity of a run is invoked with a schedule-to-start
    timeout of one second (10^9 ns) and the input's [Timeout] as
    start-to-close timeout. *)
Theorem every_activity_is_bounded
    (i : Payload) (input : InboundWorkflowInput) (q : Request) (r : Reply) :
  Convert i = Some input ->
  (q, r) ∈ (rt.run (Handler Convert i) engine).2 ->
  req_options q = mkActivityOptions 1000000000 (Timeout input).
Proof.
  intros Hc Hin.
  destruct (InboundWorkflow_Run Convert engine i input Hc) as (res & log & Hrun & HR).
  rewrite Hrun in Hin. cbn in Hin.
  paths HR; entries Hin; reflexivity.
Qed.

(** ** X2: on a converted input the first activity invoked is SessionInit,
    on the input's ANI, DNIS, domain, initializer and timeout (the session
    id is not passed), with [output] still [success=false] and empty. *)
Theorem SessionInit_runs_first (i : Payload) (input : InboundWorkflowInput) :
  Convert i = Some input ->
  let q := mkRequest (mkActivityOptions Second (Timeout input))
             (SessionInitActivity
                (mkSessionInitActivityInput (ANI input) (DNIS input) (Domain input)
                   (Initializer input) (Timeout input)))
             (mkWorkflowOutput false (Some ∅)) in
  ∃ rest, (rt.run (Handler Convert i) engine).2 = (q, engine q) :: rest.
Proof.
  intros Hc q.
  destruct (InboundWorkflow_Run Convert engine i input Hc) as (res & log & -> & HR).
  inversion HR as [? ? | out ? rest ? Hsi ? ?]; subst; cbn.
  - by eexists.
  - exists rest. rewrite <- Hsi. reflexivity.
Qed.

(** ** X3: the activities a run invokes are, in order, none (the input did
    not convert), SessionInit alone, SessionInit then Hangup, SessionInit
    then Originate, or SessionInit, Originate, Bridge; nothing else. *)
Theorem activity_sequences (i : Payload) :
  kinds (rt.run (Handler Convert i) engine).2
  ∈ [ []; [SessionInit]; [SessionInit; Hangup_]; [SessionInit; Originate_];
      [SessionInit; Originate_; Bridge_] ].
Proof.
  destruct (Convert i) as [input|] eqn:Hc.
  - destruct (InboundWorkflow_Run Convert engine i input Hc) as (res & log & -> & HR).
    paths HR; cbn;
      solve [repeat first [apply list_elem_of_here | apply list_elem_of_further]].
  - rewrite (InboundWorkflow_unconvertible Convert engine i Hc). apply list_elem_of_here.
Qed.

(** ** X4: the one variable [output] is handed from activity to activity:
    the first request carries the initial output, every later one the output
    that the exchange before it delivered. *)
Theorem output_is_threaded (i : Payload) :
  threaded initial_output (rt.run (Handler Convert i) engine).2.
Proof.
  destruct (Convert i) as [input|] eqn:Hc.
  - destruct (InboundWorkflow_Run Convert engine i input Hc) as (res & log & -> & HR).
    paths HR; cbn; repeat split;
      repeat match goal with H : engine _ = (_, _) |- _ => rewrite H end; done.
  - by rewrite (InboundWorkflow_unconvertible Convert engine i Hc).
Qed.

(** ** X5: Bridge is invoked only on a confirmed leg: whenever a run invokes
    Bridge, the exchange just before it is an Originate that succeeded and
    whose output holds, as a string under [uid], the originatee; the
    originator is the input's session id; Bridge is the last activity and
    its reply is what the workflow returns. *)
Theorem Bridge_needs_a_confirmed_leg
    (i : Payload) (input : InboundWorkflowInput) (q : Request) (r : Reply)
    (bi : BridgeActivityInput) :
  Convert i = Some input ->
  (q, r) ∈ (rt.run (Handler Convert i) engine).2 ->
  req_activity q = BridgeActivity bi ->
  ∃ si qo out2,
    rt.run (Handler Convert i) engine = (rt.Returned r, [si; (qo, (out2, None)); (q, r)])
    ∧ is_Originate qo ∧ Success out2 = true
    ∧ index (Metadata_ out2) Uid = VString (Originatee bi)
    ∧ Originator bi = SessionId input
    ∧ req_output q = out2.
Proof.
  intros Hc Hin Hq.
  destruct (InboundWorkflow_Run Convert engine i input Hc) as (res & log & Hrun & HR).
  rewrite Hrun in Hin |- *. cbn in Hin.
  paths HR; entries Hin.
  eexists _, _, _. split; [reflexivity|]. cbn in Hq. simplify_eq.
  split_and!; try done. by eexists.
Qed.

(** ** X6: Originate is invoked only on a checked decision: whenever a run
    invokes Originate, SessionInit succeeded with action ["originate"], the
    destination and the gateway of the request are the strings its metadata
    holds, the profile is the one it holds (empty if none), the timeout is
    the input's, rejection is allowed, auto-answer is off and the direction
    is inbound. *)
Theorem Originate_needs_a_checked_decision
    (i : Payload) (input : InboundWorkflowInput) (q : Request) (r : Reply)
    (oi : OriginateActivityInput) :
  Convert i = Some input ->
  (q, r) ∈ (rt.run (Handler Convert i) engine).2 ->
  req_activity q = OriginateActivity oi ->
  ∃ out,
    engine (SessionInit_request input) = (out, None) ∧ Success out = true
    ∧ index (Metadata_ out) Action = VString "originate"
    ∧ index (Metadata_ out) Destination = VString (orig_Destination oi)
    ∧ index (Metadata_ out) Gateway = VString (orig_Gateway oi)
    ∧ optional (index (Metadata_ out) Profile) = Some (orig_Profile oi)
    ∧ orig_Timeout oi = Timeout input
    ∧ orig_AllowReject oi = true ∧ orig_AutoAnswer oi = false
    ∧ orig_Direction oi = Inbound
    ∧ req_output q = out.
Proof.
  intros Hc Hin Hq.
  destruct (InboundWorkflow_Run Convert engine i input Hc) as (res & log & Hrun & HR).
  rewrite Hrun in Hin. cbn in Hin.
  paths HR; entries Hin; cbn in Hq; simplify_eq.
  all: eexists; split_and!; try done.
Qed.

(** ** X8: Hangup is invoked only on the decision to hang up: whenever a run
    invokes Hangup, SessionInit succeeded with action ["hangup"], the request
    names the input's session id and the cause the metadata holds (empty if
    none), Hangup is the second and last activity, and its reply is what the
    workflow returns. *)
Theorem Hangup_needs_the_decision
    (i : Payload) (input : InboundWorkflowInput) (q : Request) (r : Reply)
    (hi : HangupActivityInput) :
  Convert i = Some input ->
  (q, r) ∈ (rt.run (Handler Convert i) engine).2 ->
  req_activity q = HangupActivity hi ->
  ∃ out,
    engine (SessionInit_request input) = (out, None) ∧ Success out = true
    ∧ index (Metadata_ out) Action = VString "hangup"
    ∧ hup_SessionId hi = SessionId input
    ∧ optional (index (Metadata_ out) HangupCause) = Some (hup_HangupCause hi)
    ∧ rt.run (Handler Convert i) engine
      = (rt.Returned r, [(SessionInit_request input, (out, None)); (q, r)]).
Proof.
  intros Hc Hin Hq.
  destruct (InboundWorkflow_Run Convert engine i input Hc) as (res & log & Hrun & HR).
  rewrite Hrun in Hin |- *. cbn in Hin.
  paths HR; entries Hin; cbn in Hq; simplify_eq.
  eexists; split_and!; done.
Qed.

(** ** X9: when Originate delivers an error or [success=false], the workflow
    returns that output and error, and Originate is the last activity: no
    Bridge, and no Hangup of the leg either. *)
Theorem Originate_failure_is_returned
    (i : Payload) (input : InboundWorkflowInput) (out : WorkflowOutput) (d g p : string) :
  Convert i = Some input ->
  engine (SessionInit_request input) = (out, None) -> Success out = true ->
  index (Metadata_ out) Action = VString "originate" ->
  index (Metadata_ out) Destination = VString d ->
  index (Metadata_ out) Gateway = VString g ->
  optional (index (Metadata_ out) Profile) = Some p ->
  let q := mkRequest (mkActivityOptions Second (Timeout input))
             (OriginateActivity
                (mkOriginateActivityInput (Timeout input) d g true false Inbound p))
             out in
  unsuccessful (engine q) ->
  rt.run (Handler Convert i) engine
  = (rt.Returned (engine q), [(SessionInit_request input, (out, None)); (q, engine q)]).
Proof.
  intros Hc Hsi Hs Ha Hd Hg Hp q Hu.
  destruct (InboundWorkflow_Branch Convert engine i input out Hc Hsi Hs)
    as (res & rest & -> & HB).
  inversion HB; subst; repeat match goal with x := _ |- _ => subst x end; settle.
  all: unfold Originate_request, options_of in *;
    match goal with
    | H : engine _ = (?o, None), Hs2 : Success ?o = true |- _ =>
        rewrite H in Hu; by apply successful_not_unsuccessful in Hu
    end.
Qed.

(** ** X10: the workflow panics only on a type assertion after a successful
    activity: if a run panics, the input converted and SessionInit
    succeeded, and either SessionInit is the only activity invoked, or
    Originate was invoked as well, succeeded, and delivered a non-string
    [uid]; in that case the originated leg is left neither bridged nor
    hung up. *)
Theorem panic_sites (i : Payload) :
  (rt.run (Handler Convert i) engine).1 = rt.Panicked ->
  ∃ input out,
    Convert i = Some input
    ∧ engine (SessionInit_request input) = (out, None) ∧ Success out = true
    ∧ ((rt.run (Handler Convert i) engine).2 = [(SessionInit_request input, (out, None))]
       ∨ ∃ qo out2,
           (rt.run (Handler Convert i) engine).2
           = [(SessionInit_request input, (out, None)); (qo, (out2, None))]
           ∧ is_Originate qo ∧ Success out2 = true
           ∧ holds_non_string (index (Metadata_ out2) Uid)).
Proof.
  destruct (Convert i) as [input|] eqn:Hc;
    [| by rewrite (InboundWorkflow_unconvertible Convert engine i Hc)].
  destruct (InboundWorkflow_Run Convert engine i input Hc) as (res & log & -> & HR).
  cbn. intros ->. exists input.
  paths HR; exists out; (split; [reflexivity|]); (split_and!; [done..|]).
  all: try (by left).
  right. eexists _, _. split_and!; [reflexivity | by eexists | done | by split].
Qed.

(** ** X11: what the workflow returns on a converted input is read off the
    last exchange: its output is the one that exchange delivered, and its
    error is the one that exchange delivered, unless the workflow stopped on
    a missing [destination], [gateway] or [uid]; it then returns the
    missing-field error together with an output that says
    [success=true]. *)
Theorem returned_pair_is_last_reply
    (i : Payload) (input : InboundWorkflowInput) (out : WorkflowOutput)
    (err : option error) :
  Convert i = Some input ->
  (rt.run (Handler Convert i) engine).1 = rt.Returned (out, err) ->
  ∃ q e,
    last_exchange (rt.run (Handler Convert i) engine).2 = Some (q, (out, e))
    ∧ (err = e
       ∨ (e = None ∧ Success out = true
          ∧ (err = Some (MissingFieldError "destination")
             ∨ err = Some (MissingFieldError "gateway")
             ∨ err = Some (MissingFieldError "uid")))).
Proof.
  intros Hc.
  destruct (InboundWorkflow_Run Convert engine i input Hc) as (res & log & -> & HR).
  cbn. intros ->.
  paths HR; cbn.
  all: try match goal with
           | H : engine ?q = (_, _) |- context [engine ?q] => rewrite H
           | H : (_, _) = engine ?q |- context [engine ?q] => rewrite <- H
           end.
  all: eexists _, _; split; [reflexivity|]; by auto 10.
Qed.

End InboundWorkflow_more.

(** * Further properties of the Bridge activity and of the factory *)

(** ** X12: when the switch answers the bridge command with an error, the
    activity returns that very error with [success=false] and an empty
    metadata map; whatever response came with the error is dropped. *)
Theorem BridgeActivity_propagates_switch_error
    {Payload : Type} (Convert : Payload -> option BridgeActivityInput)
    (fsClient : SocketClient) (i : Payload) (input : BridgeActivityInput)
    (res : Value) (e : error) :
  Convert i = Some input ->
  let cmd := mkCommand "uuid_bridge" (Originator input +:+ " " +:+ Originatee input) in
  fsClient cmd = (res, Some e) ->
  rt.run (activities.Handler Convert i) fsClient
  = (rt.Returned (mkWorkflowOutput false (Some ∅), Some e), [(cmd, (res, Some e))]).
Proof.
  intros Hc cmd He. subst cmd.
  rewrite (BridgeActivity_converted Convert fsClient i input Hc).
  cbv zeta. unfold bridge_command. by rewrite He.
Qed.

Lemma append_String (c : Ascii.ascii) (s t : string) :
  String c s +:+ t = String c (s +:+ t).
Proof. reflexivity. Qed.

Lemma append_EmptyString (t : string) : EmptyString +:+ t = t.
Proof. reflexivity. Qed.

Lemma append_blank_inj (A A' B B' : string) :
  no_blank A = true -> no_blank A' = true ->
  A +:+ " " +:+ B = A' +:+ " " +:+ B' -> A = A' ∧ B = B'.
Proof.
  revert A'. induction A as [|c A IH]; intros [|c' A'] HA HA' Heq;
    rewrite ?append_String, ?append_EmptyString in Heq; cbn in HA, HA'.
  - injection Heq as Heq. by subst.
  - injection Heq as <- _. vm_compute in HA'. done.
  - injection Heq as -> _. vm_compute in HA. done.
  - injection Heq as -> Heq.
    apply andb_prop in HA as [_ HA]. apply andb_prop in HA' as [_ HA'].
    by destruct (IH A' HA HA' Heq) as [-> ->].
Qed.

(** ** X13: for originators that hold no blank, the command tells the two
    legs: two invocations that issue the same commands were given the same
    originator and the same originatee. *)
Theorem bridge_command_tells_the_legs
    {Payload : Type} (Convert : Payload -> option BridgeActivityInput)
    (fsClient fsClient' : SocketClient) (i i' : Payload)
    (input input' : BridgeActivityInput) :
  Convert i = Some input -> Convert i' = Some input' ->
  no_blank (Originator input) = true -> no_blank (Originator input') = true ->
  issued (rt.run (activities.Handler Convert i) fsClient).2
  = issued (rt.run (activities.Handler Convert i') fsClient').2 ->
  input = input'.
Proof.
  intros Hc Hc' Hb Hb'.
  rewrite (BridgeActivity_converted Convert fsClient i input Hc),
    (BridgeActivity_converted Convert fsClient' i' input' Hc'). cbn.
  intros [= Heq].
  destruct input as [A B], input' as [A' B']; cbn in *.
  by destruct (append_blank_inj A A' B B' Hb Hb' Heq) as [-> ->].
Qed.

(** ** X14: for every key, a factory built on a client returns either a
    processor and no error, the processor holding that client, or no
    processor and the unsupported-action error; never both, never
    neither. *)
Theorem CreateActivityProcessor_processor_xor_error (c : SocketClient) (s : string) :
  (∃ p, processors.CreateActivityProcessor (processors.NewFreeswitchProcessorFactory c) s
        = (Some p, None)
        ∧ client_of p = c)
  ∨ processors.CreateActivityProcessor (processors.NewFreeswitchProcessorFactory c) s
    = (None, Some (WorkflowInputError "unsupported action")).
Proof.
  unfold processors.CreateActivityProcessor.
  repeat case_match; eauto.
Qed.

(** ** X15: the workflow and the activity together: the Bridge activity, run
    on the input a workflow run hands it, issues one command,
    [uuid_bridge], on the workflow input's session id and the [uid] that the
    Originate just before delivered. *)
Theorem workflow_bridge_command
    {Payload PayloadB : Type}
    (Convert : Payload -> option InboundWorkflowInput)
    (ConvertB : PayloadB -> option BridgeActivityInput)
    (engine : Engine) (fsClient : SocketClient)
    (i : Payload) (input : InboundWorkflowInput) (q : Request) (r : Reply)
    (bi : BridgeActivityInput) (p : PayloadB) :
  Convert i = Some input ->
  (q, r) ∈ (rt.run (workflows.Handler Convert i) engine).2 ->
  req_activity q = BridgeActivity bi ->
  ConvertB p = Some bi ->
  ∃ si qo out2 X,
    (rt.run (workflows.Handler Convert i) engine).2 = [si; (qo, (out2, None)); (q, r)]
    ∧ is_Originate qo
    ∧ index (Metadata_ out2) Uid = VString X
    ∧ issued (rt.run (activities.Handler ConvertB p) fsClient).2
      = [mkCommand "uuid_bridge" (SessionId input +:+ " " +:+ X)].
Proof.
  intros Hc Hin Hq Hp.
  destruct (InboundWorkflow_Run Convert engine i input Hc) as (res & log & Hrun & HR).
  rewrite Hrun in Hin |- *. cbn in Hin.
  rewrite (BridgeActivity_converted ConvertB fsClient p bi Hp).
  paths HR; entries Hin.
  cbn in Hq. simplify_eq. eexists _, _, _, _.
  split_and!; [reflexivity | by eexists | done | reflexivity].
Qed.

(** ** The further properties at concrete runs *)

Lemma every_activity_is_bounded_witness :
  req_options (Hangup_request sample.call "NORMAL_CLEARING" sample.decided_hangup)
  = mkActivityOptions 1000000000 30000000000.
Proof.
  apply (every_activity_is_bounded sample.Convert
           (sample.deciding (sample.decided_hangup, None)) (Some sample.call) sample.call
           (Hangup_request sample.call "NORMAL_CLEARING" sample.decided_hangup)
           (sample.hung_up, None)).
  - reflexivity.
  - apply (list_elem_of_lookup_2 _ 1). reflexivity.
Defined.

Lemma SessionInit_runs_first_witness :
  ∃ rest,
    (rt.run (workflows.Handler sample.Convert (Some sample.call))
       (sample.deciding (sample.decided_hangup, None))).2
    = (SessionInit_request sample.call, (sample.decided_hangup, None)) :: rest.
Proof.
  apply (SessionInit_runs_first sample.Convert
           (sample.deciding (sample.decided_hangup, None)) (Some sample.call) sample.call).
  reflexivity.
Defined.

Lemma Bridge_needs_a_confirmed_leg_witness :
  ∃ si qo out2,
    rt.run (workflows.Handler sample.Convert (Some sample.call))
      (sample.deciding (sample.decided_originate, None))
    = (rt.Returned (sample.bridged, None),
       [si; (qo, (out2, None));
        (Bridge_request sample.call "leg-b" sample.originated, (sample.bridged, None))])
    ∧ is_Originate qo ∧ Success out2 = true
    ∧ index (Metadata_ out2) Uid = VString "leg-b"
    ∧ "leg-a" = SessionId sample.call
    ∧ sample.originated = out2.
Proof.
  apply (Bridge_needs_a_confirmed_leg sample.Convert
           (sample.deciding (sample.decided_originate, None)) (Some sample.call) sample.call
           (Bridge_request sample.call "leg-b" sample.originated) (sample.bridged, None)
           (mkBridgeActivityInput "leg-a" "leg-b")).
  - reflexivity.
  - apply (list_elem_of_lookup_2 _ 2). reflexivity.
  - reflexivity.
Defined.

Lemma Originate_needs_a_checked_decision_witness :
  ∃ out,
    sample.deciding (sample.decided_originate, None) (SessionInit_request sample.call)
    = (out, None)
    ∧ Success out = true
    ∧ index (Metadata_ out) Action = VString "originate"
    ∧ index (Metadata_ out) Destination = VString "3000"
    ∧ index (Metadata_ out) Gateway = VString "gw1"
    ∧ optional (index (Metadata_ out) Profile) = Some EmptyString
    ∧ 30000000000%Z = Timeout sample.call
    ∧ true = true ∧ false = false ∧ Inbound = Inbound
    ∧ sample.decided_originate = out.
Proof.
  apply (Originate_needs_a_checked_decision sample.Convert
           (sample.deciding (sample.decided_originate, None)) (Some sample.call) sample.call
           (Originate_request sample.call "3000" "gw1" "" sample.decided_originate)
           (sample.originated, None)
           (mkOriginateActivityInput 30000000000 "3000" "gw1" true false Inbound "")).
  - reflexivity.
  - apply (list_elem_of_lookup_2 _ 1). reflexivity.
  - reflexivity.
Defined.

Lemma originate_is_invoked_witness :
  ∃ rest,
    (rt.run (workflows.Handler sample.Convert (Some sample.call))
       (sample.deciding (sample.decided_originate, None))).2
    = (SessionInit_request sample.call, (sample.decided_originate, None))
      :: (Originate_request sample.call "3000" "gw1" "" sample.decided_originate,
          (sample.originated, None))
      :: rest.
Proof.
  apply (originate_is_invoked sample.Convert
           (sample.deciding (sample.decided_originate, None)) (Some sample.call) sample.call
           sample.decided_originate "3000" "gw1" ""); reflexivity.
Defined.

Lemma Hangup_needs_the_decision_witness :
  ∃ out,
    sample.deciding (sample.decided_hangup, None) (SessionInit_request sample.call)
    = (out, None)
    ∧ Success out = true
    ∧ index (Metadata_ out) Action = VString "hangup"
    ∧ "leg-a" = SessionId sample.call
    ∧ optional (index (Metadata_ out) HangupCause) = Some "NORMAL_CLEARING"
    ∧ rt.run (workflows.Handler sample.Convert (Some sample.call))
        (sample.deciding (sample.decided_hangup, None))
      = (rt.Returned (sample.hung_up, None),
         [(SessionInit_request sample.call, (out, None));
          (Hangup_request sample.call "NORMAL_CLEARING" sample.decided_hangup,
           (sample.hung_up, None))]).
Proof.
  apply (Hangup_needs_the_decision sample.Convert
           (sample.deciding (sample.decided_hangup, None)) (Some sample.call) sample.call
           (Hangup_request sample.call "NORMAL_CLEARING" sample.decided_hangup)
           (sample.hung_up, None)
           (mkHangupActivityInput "leg-a" "NORMAL_CLEARING")).
  - reflexivity.
  - apply (list_elem_of_lookup_2 _ 1). reflexivity.
  - reflexivity.
Defined.

Lemma Originate_failure_is_returned_witness :
  rt.run (workflows.Handler sample.Convert (Some sample.call)) sample.originate_unanswered
  = (rt.Returned sample.no_answer,
     [(SessionInit_request sample.call, (sample.decided_originate, None));
      (Originate_request sample.call "3000" "gw1" "" sample.decided_originate,
       sample.no_answer)]).
Proof.
  apply (Originate_failure_is_returned sample.Convert sample.originate_unanswered
           (Some sample.call) sample.call sample.decided_originate "3000" "gw1" "");
    try reflexivity.
  left. discriminate.
Defined.

Lemma panic_sites_witness :
  ∃ input out,
    sample.Convert (Some sample.call) = Some input
    ∧ sample.originate_numeric_uid (SessionInit_request input) = (out, None)
    ∧ Success out = true
    ∧ ((rt.run (workflows.Handler sample.Convert (Some sample.call))
          sample.originate_numeric_uid).2
       = [(SessionInit_request input, (out, None))]
       ∨ ∃ qo out2,
           (rt.run (workflows.Handler sample.Convert (Some sample.call))
              sample.originate_numeric_uid).2
           = [(SessionInit_request input, (out, None)); (qo, (out2, None))]
           ∧ is_Originate qo ∧ Success out2 = true
           ∧ holds_non_string (index (Metadata_ out2) Uid)).
Proof.
  apply (panic_sites sample.Convert sample.originate_numeric_uid (Some sample.call)).
  reflexivity.
Defined.

Lemma returned_pair_is_last_reply_witness :
  ∃ q e,
    last_exchange
      (rt.run (workflows.Handler sample.Convert (Some sample.call))
         (sample.deciding (sample.decided_originate_nowhere, None))).2
    = Some (q, (sample.decided_originate_nowhere, e))
    ∧ (Some (MissingFieldError "destination") = e
       ∨ (e = None ∧ Success sample.decided_originate_nowhere = true
          ∧ (Some (MissingFieldError "destination") = Some (MissingFieldError "destination")
             ∨ Some (MissingFieldError "destination") = Some (MissingFieldError "gateway")
             ∨ Some (MissingFieldError "destination") = Some (MissingFieldError "uid")))).
Proof.
  apply (returned_pair_is_last_reply sample.Convert
           (sample.deciding (sample.decided_originate_nowhere, None))
           (Some sample.call) sample.call sample.decided_originate_nowhere
           (Some (MissingFieldError "destination"))); reflexivity.
Defined.

Lemma BridgeActivity_propagates_switch_error_witness :
  rt.run (activities.Handler sample.Convert (Some sample.legs)) sample.switch_down
  = (rt.Returned (mkWorkflowOutput false (Some ∅), Some (OtherError "disconnected")),
     [(mkCommand "uuid_bridge" "leg-a leg-b", (VNil, Some (OtherError "disconnected")))]).
Proof.
  apply (BridgeActivity_propagates_switch_error sample.Convert sample.switch_down
           (Some sample.legs) sample.legs VNil (OtherError "disconnected")); reflexivity.
Defined.

Lemma bridge_command_tells_the_legs_witness :
  mkBridgeActivityInput "leg-a" "leg-b" = sample.legs.
Proof.
  apply (bridge_command_tells_the_legs sample.Convert sample.switch_ok sample.switch_down
           (Some (mkBridgeActivityInput "leg-a" "leg-b")) (Some sample.legs));
    reflexivity.
Defined.

Lemma workflow_bridge_command_witness :
  ∃ si qo out2 X,
    (rt.run (workflows.Handler sample.Convert (Some sample.call))
       (sample.deciding (sample.decided_originate, None))).2
    = [si; (qo, (out2, None));
       (Bridge_request sample.call "leg-b" sample.originated, (sample.bridged, None))]
    ∧ is_Originate qo
    ∧ index (Metadata_ out2) Uid = VString X
    ∧ issued (rt.run (activities.Handler sample.Convert (Some sample.legs))
                sample.switch_ok).2
      = [mkCommand "uuid_bridge" (SessionId sample.call +:+ " " +:+ X)].
Proof.
  apply (workflow_bridge_command sample.Convert sample.Convert
           (sample.deciding (sample.decided_originate, None)) sample.switch_ok
           (Some sample.call) sample.call
           (Bridge_request sample.call "leg-b" sample.originated) (sample.bridged, None)
           sample.legs (Some sample.legs)).
  - reflexivity.
  - apply (list_elem_of_lookup_2 _ 2). reflexivity.
  - reflexivity.
  - reflexivity.
Defined.
